(** * arkid_client.org.client : the organisation client [OrgClient]

    A shallow embedding of [arkid_client/org/client.py].  Every method of
    [OrgClient] logs one line through the client's logger and then calls one
    verb method ([get], [post], [patch], [put], [delete]) inherited from
    [BaseClient].  The methods are embedded as computations in a state and
    exception monad whose state holds the Python heap (the client objects)
    and the chronological trace of what the program did to the outside
    world: log records and HTTP requests. *)

From Stdlib Require Import Ascii.
From stdpp Require Import gmap strings list fin_maps.

Set Warnings "-register-all".
Set Default Proof Using "Type".

(** ** Python values *)

(** The values that travel through the client untouched: query parameters
    ([**params]) and JSON bodies ([dict], [list], [str], ...).  A Python
    [dict] with string keys is a finite map. *)
Inductive pyval : Type :=
| PyNone
| PyBool (b : bool)
| PyInt (z : Z)
| PyStr (s : string)
| PyList (l : list pyval)
| PyDict (d : gmap string pyval).

Abbreviation pydict := (gmap string pyval) (only parsing).

(** [str.format] restricted to what the source uses: a template whose only
    replacement fields are the automatically numbered [{}], filled with
    [str] arguments.  The arguments are copied as they are, they are not
    scanned again.  Python raises [IndexError] when a field has no argument
    left: [None] here. *)
Fixpoint format (template : string) (args : list string) : option string :=
  match template with
  | EmptyString => Some EmptyString
  | String "{"%char (String "}"%char rest) =>
      match args with
      | [] => None
      | a :: args' => (λ s, a +:+ s) <$> format rest args'
      end
  | String c rest => String c <$> format rest args
  end.

(** [needle in haystack] on strings. *)
Fixpoint is_infix (needle haystack : string) : bool :=
  String.prefix needle haystack ||
  match haystack with
  | EmptyString => false
  | String _ rest => is_infix needle rest
  end.

(** ** HTTP requests, responses and the trace *)

Inductive verb : Type := GET | POST | PATCH | PUT | DELETE.

Record request : Type := Request {
  req_method : verb;
  req_base_url : string;
  req_path : string;
  req_params : option pydict;
  req_json_body : option pydict;
  req_authorization : option string;
}.

(** What the server sent back, before the client looks at it. *)
Record raw_response : Type := RawResponse {
  status : Z;
  message : string;
  data : pyval;
}.

Inductive log_level : Type := DEBUG | INFO | WARNING | ERROR.

Inductive event : Type :=
| EvLog (level : log_level) (line : string)
| EvRequest (r : request).

Definition requests_of (tr : list event) : list request :=
  omap (λ e, match e with EvRequest r => Some r | EvLog _ _ => None end) tr.

Definition info_lines_of (tr : list event) : list string :=
  omap (λ e, match e with EvLog INFO l => Some l | _ => None end) tr.

(** The transport collaborator: the remote service, which answers a request
    knowing the requests it has received so far, and the test that tells an
    error response from a successful one. *)
Class Transport : Type := {
  respond : list request → request → raw_response;
  is_error_response : raw_response → bool;
}.

(** ** Classes named by the source *)

Inductive authorizer_type : Type :=
| BasicAuthorizer
| OtherAuthorizer (class_name : string).

Inductive error_class_name : Type :=
| OrgAPIError
| OtherAPIError (class_name : string).

Inductive response_class_name : Type :=
| ArkIDHTTPResponse
| OtherHTTPResponse (class_name : string).

#[global] Instance authorizer_type_eq_dec : EqDecision authorizer_type.
Proof. solve_decision. Defined.

(** An authorizer supplies the credentials of each request. *)
Record authorizer : Type := Authorizer {
  auth_type : authorizer_type;
  auth_header : string;
}.

(** The class attributes a resource client declares. *)
Record client_class : Type := ClientClass {
  cls_allowed_authorizer_types : list authorizer_type;
  cls_error_class : error_class_name;
  cls_default_response_class : response_class_name;
}.

(** The attributes of a client instance. *)
Record client : Type := Client {
  klass : client_class;
  base_url : string;
  service : string;
  client_authorizer : option authorizer;
}.

Record response : Type := Response {
  resp_class : response_class_name;
  resp_raw : raw_response;
}.

(** ** The monad of client code *)

Definition loc := positive.

Record state : Type := State {
  heap : gmap loc client;
  trace : list event;
}.

Inductive exn : Type :=
| APIError (cls : error_class_name) (http_status : Z) (msg : string)
| AuthorizerNotAllowed (t : authorizer_type)
| IndexError
| NoSuchObject (l : loc).

Inductive result (A : Type) : Type :=
| Ok (a : A)
| Raise (e : exn).
Arguments Ok {A} a.
Arguments Raise {A} e.

Definition M (A : Type) : Type := state → result A * state.

#[global] Instance M_ret : MRet M := λ A a st, (Ok a, st).

#[global] Instance M_bind : MBind M := λ A B f m st,
  match m st with
  | (Ok a, st') => f a st'
  | (Raise e, st') => (Raise e, st')
  end.

Definition raise {A : Type} (e : exn) : M A := λ st, (Raise e, st).

Definition get_trace : M (list event) := λ st, (Ok (trace st), st).

Definition emit (e : event) : M unit :=
  λ st, (Ok (), {| heap := heap st; trace := trace st ++ [e] |}).

Definition read_object (self : loc) : M client :=
  λ st, match heap st !! self with
        | Some c => (Ok c, st)
        | None => (Raise (NoSuchObject self), st)
        end.

Definition write_object (self : loc) (c : client) : M unit :=
  λ st, (Ok (), {| heap := <[self := c]> (heap st); trace := trace st |}).

Definition fresh_loc : M loc := λ st, (Ok (fresh (dom (heap st))), st).

Definition lift_format (o : option string) : M string :=
  match o with
  | Some s => mret s
  | None => raise IndexError
  end.

(** The events a computation adds to the trace when run from [st]. *)
Definition emitted {A : Type} (m : M A) (st : state) : list event :=
  drop (length (trace st)) (trace (m st).2).

Definition outcome {A : Type} (m : M A) (st : state) : result A := (m st).1.

(** ** Python class instantiation *)

(** A class instantiation expression [Cls(...)]: a new object is
    allocated, initialised, and handed to the caller only when the
    initialiser returns. *)
Definition instantiate (init : loc → M unit) : M loc :=
  self ← fresh_loc; init self;; mret self.

(** ** BaseClient *)

Module BaseClient.

(** Modelled from the spec: [BaseClient] is not part of the sources at
    hand.  The REST surface of a resource client lies under
    [/siteapi/v1/<service>/]. *)
Definition base_path (c : client) : string :=
  "/siteapi/v1/" +:+ service c +:+ "/".

(** Modelled from the spec: [BaseClient.__init__], missing from the
    sources.  An authorizer whose type is not in the allow-list of the
    class is rejected at construction time; otherwise the configuration
    (base URL, service, authorizer) is stored on the instance. *)
Definition __init__ (cls : client_class) (self : loc) (url : string)
    (svc : string) (auth : option authorizer) : M unit :=
  match auth with
  | Some a =>
      if bool_decide (auth_type a ∈ cls_allowed_authorizer_types cls)
      then write_object self (Client cls url svc auth)
      else raise (AuthorizerNotAllowed (auth_type a))
  | None => write_object self (Client cls url svc auth)
  end.

(** Modelled from the spec: the logger sink of the client,
    [self.logger.info(line)]. *)
Definition logger_info (self : loc) (line : string) : M unit :=
  read_object self;; emit (EvLog INFO line).

(** Modelled from the spec: the request a verb method puts on the wire.
    The path is composed under the base path of the client and the
    credentials are those of its authorizer. *)
Definition build_request (c : client) (method : verb) (path : string)
    (params json_body : option pydict) : request :=
  {| req_method := method;
     req_base_url := base_url c;
     req_path := base_path c +:+ path;
     req_params := params;
     req_json_body := json_body;
     req_authorization := auth_header <$> client_authorizer c |}.

Section verbs.
Context `{Transport}.

(** Modelled from the spec: error translation.  An error answer is
    raised as the error class of the client, with the status and the
    message of the answer; any other answer is wrapped in the response
    class of the client. *)
Definition check_response (c : client) (r : raw_response) : M response :=
  if is_error_response r
  then raise (APIError (cls_error_class (klass c)) (status r) (message r))
  else mret {| resp_class := cls_default_response_class (klass c);
               resp_raw := r |}.

(** Modelled from the spec: the request helper behind the verb methods,
    missing from the sources.  It sends the request once and hands the
    answer to [check_response]. *)
Definition send_request (self : loc) (method : verb) (path : string)
    (params json_body : option pydict) : M response :=
  c ← read_object self;
  let req := build_request c method path params json_body in
  tr ← get_trace;
  emit (EvRequest req);;
  check_response c (respond (requests_of tr) req).

(** Modelled from the spec: the verb method
    [get(path, params?, json_body?)] of the base transport; an argument the
    caller leaves out is [None]. *)
Definition get := λ self, send_request self GET.

(** Modelled from the spec: the verb method
    [post(path, params?, json_body?)]. *)
Definition post := λ self, send_request self POST.

(** Modelled from the spec: the verb method
    [patch(path, params?, json_body?)]. *)
Definition patch := λ self, send_request self PATCH.

(** Modelled from the spec: the verb method
    [put(path, params?, json_body?)]. *)
Definition put := λ self, send_request self PUT.

(** Modelled from the spec: the verb method
    [delete(path, params?, json_body?)]. *)
Definition delete := λ self, send_request self DELETE.
End verbs.

End BaseClient.

(** ** OrgClient *)

Module OrgClient.

Definition allowed_authorizer_types : list authorizer_type := [BasicAuthorizer].
Definition error_class : error_class_name := OrgAPIError.
Definition default_response_class : response_class_name := ArkIDHTTPResponse.

Definition cls : client_class :=
  {| cls_allowed_authorizer_types := allowed_authorizer_types;
     cls_error_class := error_class;
     cls_default_response_class := default_response_class |}.

(** [**kwargs] is handed on to [BaseClient.__init__] and plays no part
    here. *)
Definition __init__ (self : loc) (base_url : string)
    (authorizer : option authorizer) : M unit :=
  BaseClient.__init__ cls self base_url "org" authorizer.

(** [OrgClient(base_url, authorizer=authorizer)] *)
Definition new (base_url : string) (authorizer : option authorizer) : M loc :=
  instantiate (λ self, __init__ self base_url authorizer).

Section methods.
Context `{Transport}.

Definition query_own_org (self : loc) (params : pydict) : M response :=
  BaseClient.logger_info self
    "正在调用 OrgClient.query_own_org() 接口与 ArkID 服务端进行交互";;
  BaseClient.get self "" (Some params) None.

Definition query_org (self : loc) (oid : string) : M response :=
  BaseClient.logger_info self
    "正在调用 OrgClient.query_org() 接口与 ArkID 服务端进行交互";;
  path ← lift_format (format "{}/" [oid]);
  BaseClient.get self path None None.

Definition create_org (self : loc) (json_body : pydict) : M response :=
  BaseClient.logger_info self
    "正在调用 OrgClient.create_org() 接口与 ArkID 服务端进行交互";;
  BaseClient.post self "" None (Some json_body).

Definition delete_org (self : loc) (oid : string) : M response :=
  BaseClient.logger_info self
    "正在调用 OrgClient.delete_org() 接口与 ArkID 服务端进行交互";;
  path ← lift_format (format "{}/" [oid]);
  BaseClient.delete self path None None.

Definition update_org (self : loc) (oid : string) (json_body : pydict)
    : M response :=
  BaseClient.logger_info self
    "正在调用 OrgClient.update_org() 接口与 ArkID 服务端进行交互";;
  path ← lift_format (format "{}/" [oid]);
  BaseClient.patch self path None (Some json_body).

Definition query_orguser_list (self : loc) (oid : string) (params : pydict)
    : M response :=
  BaseClient.logger_info self
    "正在调用 OrgClient.query_orguser_list() 接口与 ArkID 服务端进行交互";;
  path ← lift_format (format "{}/user/" [oid]);
  BaseClient.get self path (Some params) None.

Definition add_orguser (self : loc) (oid : string) (usernames : list pyval)
    : M response :=
  BaseClient.logger_info self
    "正在调用 OrgClient.add_orguser() 接口与 ArkID 服务端进行交互";;
  let json_body : pydict :=
    <["usernames" := PyList usernames]> (<["subject" := PyStr "add"]> ∅) in
  path ← lift_format (format "{}/user/" [oid]);
  BaseClient.patch self path None (Some json_body).

Definition delete_orguser (self : loc) (oid : string)
    (usernames : list pyval) : M response :=
  BaseClient.logger_info self
    "正在调用 OrgClient.delete_orguser() 接口与 ArkID 服务端进行交互";;
  let json_body : pydict :=
    <["usernames" := PyList usernames]> (<["subject" := PyStr "delete"]> ∅) in
  path ← lift_format (format "{}/user/" [oid]);
  BaseClient.patch self path None (Some json_body).

Definition query_orguser (self : loc) (oid username : string) : M response :=
  BaseClient.logger_info self
    "正在调用 OrgClient.query_orguser() 接口与 ArkID 服务端进行交互";;
  path ← lift_format (format "{}/user/{}/" [oid; username]);
  BaseClient.get self path None None.

Definition update_orguser (self : loc) (oid username : string)
    (json_body : pydict) : M response :=
  BaseClient.logger_info self
    "正在调用 OrgClient.update_orguser() 接口与 ArkID 服务端进行交互";;
  path ← lift_format (format "{}/user/{}/" [oid; username]);
  BaseClient.patch self path None (Some json_body).

Definition get_org_invitation_key (self : loc) (oid : string) : M response :=
  BaseClient.logger_info self
    "正在调用 OrgClient.get_org_invitation_key() 接口与 ArkID 服务端进行交互";;
  path ← lift_format (format "{}/invitation/" [oid]);
  BaseClient.get self path None None.

Definition refresh_org_invitation_key (self : loc) (oid : string)
    : M response :=
  BaseClient.logger_info self
    "正在调用 OrgClient.get_org_invitation_key() 接口与 ArkID 服务端进行交互";;
  path ← lift_format (format "{}/invitation/" [oid]);
  BaseClient.put self path None None.

Definition view_org_by_invitation_key (self : loc)
    (oid invite_link_key : string) : M response :=
  BaseClient.logger_info self
    "正在调用 OrgClient.view_org_by_invitation_key() 接口与 ArkID 服务端进行交互";;
  path ← lift_format (format "{}/invitation/{}/" [oid; invite_link_key]);
  BaseClient.get self path None None.

Definition join_org_by_invitation_key (self : loc)
    (oid invite_link_key : string) : M response :=
  BaseClient.logger_info self
    "正在调用 OrgClient.join_org_by_invitation_key() 接口与 ArkID 服务端进行交互";;
  path ← lift_format (format "{}/invitation/{}/" [oid; invite_link_key]);
  BaseClient.post self path None None.
End methods.

End OrgClient.

(** ** Calls *)

(** A method of [OrgClient] together with its arguments. *)
Inductive call : Type :=
| QueryOwnOrg (params : pydict)
| QueryOrg (oid : string)
| CreateOrg (json_body : pydict)
| DeleteOrg (oid : string)
| UpdateOrg (oid : string) (json_body : pydict)
| QueryOrguserList (oid : string) (params : pydict)
| AddOrguser (oid : string) (usernames : list pyval)
| DeleteOrguser (oid : string) (usernames : list pyval)
| QueryOrguser (oid username : string)
| UpdateOrguser (oid username : string) (json_body : pydict)
| GetOrgInvitationKey (oid : string)
| RefreshOrgInvitationKey (oid : string)
| ViewOrgByInvitationKey (oid invite_link_key : string)
| JoinOrgByInvitationKey (oid invite_link_key : string).

Definition method_name (k : call) : string :=
  match k with
  | QueryOwnOrg _ => "query_own_org"
  | QueryOrg _ => "query_org"
  | CreateOrg _ => "create_org"
  | DeleteOrg _ => "delete_org"
  | UpdateOrg _ _ => "update_org"
  | QueryOrguserList _ _ => "query_orguser_list"
  | AddOrguser _ _ => "add_orguser"
  | DeleteOrguser _ _ => "delete_orguser"
  | QueryOrguser _ _ => "query_orguser"
  | UpdateOrguser _ _ _ => "update_orguser"
  | GetOrgInvitationKey _ => "get_org_invitation_key"
  | RefreshOrgInvitationKey _ => "refresh_org_invitation_key"
  | ViewOrgByInvitationKey _ _ => "view_org_by_invitation_key"
  | JoinOrgByInvitationKey _ _ => "join_org_by_invitation_key"
  end.

(** [self.<method>(<arguments>)] *)
Definition invoke `{Transport} (self : loc) (k : call) : M response :=
  match k with
  | QueryOwnOrg params => OrgClient.query_own_org self params
  | QueryOrg oid => OrgClient.query_org self oid
  | CreateOrg json_body => OrgClient.create_org self json_body
  | DeleteOrg oid => OrgClient.delete_org self oid
  | UpdateOrg oid json_body => OrgClient.update_org self oid json_body
  | QueryOrguserList oid params => OrgClient.query_orguser_list self oid params
  | AddOrguser oid usernames => OrgClient.add_orguser self oid usernames
  | DeleteOrguser oid usernames => OrgClient.delete_orguser self oid usernames
  | QueryOrguser oid username => OrgClient.query_orguser self oid username
  | UpdateOrguser oid username json_body =>
      OrgClient.update_orguser self oid username json_body
  | GetOrgInvitationKey oid => OrgClient.get_org_invitation_key self oid
  | RefreshOrgInvitationKey oid => OrgClient.refresh_org_invitation_key self oid
  | ViewOrgByInvitationKey oid key =>
      OrgClient.view_org_by_invitation_key self oid key
  | JoinOrgByInvitationKey oid key =>
      OrgClient.join_org_by_invitation_key self oid key
  end.

(** A caller that handles whatever a call raises and goes on:
    [try: m except Exception as e: ...]. *)
Definition attempt {A : Type} (m : M A) : M (result A) :=
  λ st, (Ok (m st).1, (m st).2).

(** A program that makes the calls [ks] on one client, one after the
    other. *)
Fixpoint run_calls `{Transport} (self : loc) (ks : list call) : M unit :=
  match ks with
  | [] => mret ()
  | k :: ks' => attempt (invoke self k);; run_calls self ks'
  end.

(** A line of the log names a method when it holds the qualified name the
    source writes in every message, [OrgClient.<method>()]. *)
Definition names_method (line : string) (k : call) : bool :=
  is_infix ("OrgClient." +:+ method_name k +:+ "()") line.

(** The object at [self] is an [OrgClient] as its initialiser leaves it. *)
Definition is_org_client (st : state) (self : loc) (url : string)
    (auth : option authorizer) : Prop :=
  heap st !! self = Some {| klass := OrgClient.cls; base_url := url;
                            service := "org"; client_authorizer := auth |}.

(** ** The endpoint table

    What the documentation of the methods announces, one row per call: the
    verb, the path under the base path of the client, the query parameters
    and the body.  The properties below compare the methods with it. *)
Definition endpoint (k : call)
    : verb * string * option pydict * option pydict :=
  match k with
  | QueryOwnOrg params => (GET, "", Some params, None)
  | QueryOrg oid => (GET, oid +:+ "/", None, None)
  | CreateOrg json_body => (POST, "", None, Some json_body)
  | DeleteOrg oid => (DELETE, oid +:+ "/", None, None)
  | UpdateOrg oid json_body => (PATCH, oid +:+ "/", None, Some json_body)
  | QueryOrguserList oid params => (GET, oid +:+ "/user/", Some params, None)
  | AddOrguser oid usernames =>
      (PATCH, oid +:+ "/user/", None,
       Some {[ "subject" := PyStr "add"; "usernames" := PyList usernames ]})
  | DeleteOrguser oid usernames =>
      (PATCH, oid +:+ "/user/", None,
       Some {[ "subject" := PyStr "delete"; "usernames" := PyList usernames ]})
  | QueryOrguser oid username =>
      (GET, oid +:+ "/user/" +:+ username +:+ "/", None, None)
  | UpdateOrguser oid username json_body =>
      (PATCH, oid +:+ "/user/" +:+ username +:+ "/", None, Some json_body)
  | GetOrgInvitationKey oid => (GET, oid +:+ "/invitation/", None, None)
  | RefreshOrgInvitationKey oid => (PUT, oid +:+ "/invitation/", None, None)
  | ViewOrgByInvitationKey oid key =>
      (GET, oid +:+ "/invitation/" +:+ key +:+ "/", None, None)
  | JoinOrgByInvitationKey oid key =>
      (POST, oid +:+ "/invitation/" +:+ key +:+ "/", None, None)
  end.

Definition endpoint_request (c : client) (k : call) : request :=
  let '(method, path, params, json_body) := endpoint k in
  BaseClient.build_request c method path params json_body.

(** The method name each method writes in its log message: its own, but
    for [refresh_org_invitation_key]. *)
Definition logged_name (k : call) : string :=
  match k with
  | RefreshOrgInvitationKey _ => "get_org_invitation_key"
  | _ => method_name k
  end.

Definition log_message (k : call) : string :=
  "正在调用 OrgClient." +:+ logged_name k +:+ "() 接口与 ArkID 服务端进行交互".

(** ** A transport for running examples *)

(** A service that knows one organisation, [acme]: every request whose path
    does not mention it is answered 404. *)
Definition demo_respond (history : list request) (r : request) : raw_response :=
  if is_infix "/org/acme/" (req_path r)
  then {| status := 200; message := "OK"; data := PyDict ∅ |}
  else {| status := 404; message := "Not Found"; data := PyNone |}.

Definition demo_transport : Transport :=
  {| respond := demo_respond;
     is_error_response := λ r, bool_decide (400 ≤ status r)%Z |}.

Definition empty_state : state := {| heap := ∅; trace := [] |}.

Definition basic_auth : authorizer :=
  {| auth_type := BasicAuthorizer; auth_header := "Basic YWRtaW46YWRtaW4=" |}.

Definition demo_url : string := "https://arkid.example.org".

(** The state after [oc = OrgClient(demo_url, authorizer=basic_auth)]. *)
Definition demo_state : state := (OrgClient.new demo_url (Some basic_auth) empty_state).2.
Definition demo_self : loc := 1%positive.

(** The object [oc] refers to. *)
Definition demo_client : client :=
  {| klass := OrgClient.cls; base_url := demo_url; service := "org";
     client_authorizer := Some basic_auth |}.

(** ** Identifiers

    The organisation a call addresses: the identifier it interpolates first
    into its path, when it interpolates one. *)
Definition oid_of (k : call) : option string :=
  match k with
  | QueryOwnOrg _ | CreateOrg _ => None
  | QueryOrg oid | DeleteOrg oid | UpdateOrg oid _ | QueryOrguserList oid _
  | AddOrguser oid _ | DeleteOrguser oid _ | QueryOrguser oid _
  | UpdateOrguser oid _ _ | GetOrgInvitationKey oid
  | RefreshOrgInvitationKey oid | ViewOrgByInvitationKey oid _
  | JoinOrgByInvitationKey oid _ => Some oid
  end.

(** ['/' not in s] *)
Fixpoint slash_free (s : string) : bool :=
  match s with
  | EmptyString => true
  | String c rest => negb (Ascii.eqb c "/") && slash_free rest
  end.

(** * Properties *)

(** ** Strings and traces *)

Lemma string_app_assoc (s1 s2 s3 : string) :
  (s1 +:+ s2) +:+ s3 = s1 +:+ s2 +:+ s3.
Proof.
  induction s1 as [|a s1 IH]; [done|].
  change (String a ((s1 +:+ s2) +:+ s3) = String a (s1 +:+ s2 +:+ s3)).
  by rewrite IH.
Qed.

Lemma format_1 (oid suffix : string) :
  format (String "{" (String "}" suffix)) [oid]
  = (λ s, oid +:+ s) <$> format suffix [].
Proof. reflexivity. Qed.

Lemma requests_of_app (tr1 tr2 : list event) :
  requests_of (tr1 ++ tr2) = requests_of tr1 ++ requests_of tr2.
Proof. apply omap_app. Qed.

Lemma emitted_app {A : Type} (m : M A) (st : state) (evs : list event) :
  trace (m st).2 = trace st ++ evs → emitted m st = evs.
Proof. unfold emitted. intros ->. apply drop_app_length. Qed.

(** ** What one call does *)

Section run.
Context `{Transport}.

Lemma logger_info_run self line st c :
  heap st !! self = Some c →
  BaseClient.logger_info self line st
  = (Ok (), {| heap := heap st; trace := trace st ++ [EvLog INFO line] |}).
Proof.
  intros Hc. unfold BaseClient.logger_info, mbind, M_bind, read_object.
  by rewrite Hc.
Qed.

Lemma send_request_run self method path params json_body st c :
  heap st !! self = Some c →
  BaseClient.send_request self method path params json_body st
  = BaseClient.check_response c
      (respond (requests_of (trace st))
         (BaseClient.build_request c method path params json_body))
      {| heap := heap st;
         trace := trace st ++
           [EvRequest (BaseClient.build_request c method path params json_body)] |}.
Proof.
  intros Hc. unfold BaseClient.send_request, mbind, M_bind, read_object.
  rewrite Hc. simpl.
  by destruct (BaseClient.check_response _ _ _) as [[]].
Qed.

Lemma check_response_state c r st :
  (BaseClient.check_response c r st).2 = st.
Proof. unfold BaseClient.check_response. by destruct (is_error_response r). Qed.

(** A method body: one log line, then one verb call. *)
Lemma log_then_send self line method path params json_body st c :
  heap st !! self = Some c →
  (BaseClient.logger_info self line;;
   BaseClient.send_request self method path params json_body) st
  = BaseClient.check_response c
      (respond (requests_of (trace st))
         (BaseClient.build_request c method path params json_body))
      {| heap := heap st;
         trace := trace st ++
           [EvLog INFO line;
            EvRequest (BaseClient.build_request c method path params json_body)] |}.
Proof.
  intros Hc. unfold mbind at 1. unfold M_bind.
  rewrite (logger_info_run _ _ _ c Hc).
  rewrite (send_request_run _ _ _ _ _ _ c); [|done]. simpl.
  rewrite requests_of_app. simpl.
  by rewrite (right_id_L [] app), <-(assoc_L app).
Qed.

(** Every method behaves as its row of the endpoint table says, and logs
    [log_message]. *)
Lemma invoke_run self k st c :
  heap st !! self = Some c →
  invoke self k st
  = BaseClient.check_response c
      (respond (requests_of (trace st)) (endpoint_request c k))
      {| heap := heap st;
         trace := trace st ++
           [EvLog INFO (log_message k); EvRequest (endpoint_request c k)] |}.
Proof.
  intros Hc. destruct k; exact (log_then_send _ _ _ _ _ _ _ _ Hc).
Qed.
End run.

Section calls.
Context `{Transport}.

Lemma invoke_state self k st c :
  heap st !! self = Some c →
  (invoke self k st).2
  = {| heap := heap st;
       trace := trace st ++
         [EvLog INFO (log_message k); EvRequest (endpoint_request c k)] |}.
Proof.
  intros Hc. rewrite (invoke_run _ _ _ c Hc). apply check_response_state.
Qed.

Lemma invoke_emitted self k st c :
  heap st !! self = Some c →
  emitted (invoke self k) st
  = [EvLog INFO (log_message k); EvRequest (endpoint_request c k)].
Proof.
  intros Hc. apply emitted_app. by rewrite (invoke_state _ _ _ c Hc).
Qed.

Lemma invoke_requests self k st c :
  heap st !! self = Some c →
  requests_of (emitted (invoke self k) st) = [endpoint_request c k].
Proof. intros Hc. by rewrite (invoke_emitted _ _ _ c Hc). Qed.

Lemma invoke_outcome self k st c :
  heap st !! self = Some c →
  outcome (invoke self k) st
  = let r := respond (requests_of (trace st)) (endpoint_request c k) in
    if is_error_response r
    then Raise (APIError (cls_error_class (klass c)) (status r) (message r))
    else Ok {| resp_class := cls_default_response_class (klass c);
               resp_raw := r |}.
Proof.
  intros Hc. unfold outcome. rewrite (invoke_run _ _ _ c Hc). simpl.
  unfold BaseClient.check_response. by destruct (is_error_response _).
Qed.

Lemma log_then_no_object {A : Type} self line (m : M A) st :
  heap st !! self = None →
  (BaseClient.logger_info self line;; m) st = (Raise (NoSuchObject self), st).
Proof.
  intros Hn. unfold mbind at 1. unfold M_bind, BaseClient.logger_info.
  unfold mbind at 1. unfold M_bind, read_object. by rewrite Hn.
Qed.

(** A method called on a location that holds no object raises at once. *)
Lemma invoke_no_object self k st :
  heap st !! self = None →
  invoke self k st = (Raise (NoSuchObject self), st).
Proof.
  intros Hn. destruct k; exact (log_then_no_object _ _ _ _ Hn).
Qed.

Lemma run_calls_state self ks st c :
  heap st !! self = Some c →
  (run_calls self ks st).2
  = {| heap := heap st;
       trace := trace st ++
         mjoin ((λ k, [EvLog INFO (log_message k);
                       EvRequest (endpoint_request c k)]) <$> ks) |}.
Proof.
  revert st. induction ks as [|k ks IH]; intros st Hc; simpl.
  - rewrite (right_id_L [] app). by destruct st.
  - unfold mbind, M_bind, attempt. simpl.
    rewrite IH; rewrite (invoke_state _ _ _ c Hc); simpl; [|done].
    by rewrite <-(assoc_L app).
Qed.

Lemma requests_of_calls c ks :
  requests_of (mjoin ((λ k, [EvLog INFO (log_message k);
                             EvRequest (endpoint_request c k)]) <$> ks))
  = endpoint_request c <$> ks.
Proof.
  induction ks as [|k ks IH]; [done|].
  rewrite !fmap_cons, <-IH. reflexivity.
Qed.
End calls.

(** Every method but [refresh_org_invitation_key] writes its own name in
    its log message. *)
Lemma log_message_names_method k :
  logged_name k = method_name k → names_method (log_message k) k = true.
Proof. destruct k; intros Hk; try reflexivity. discriminate Hk. Qed.

Lemma logged_name_refresh k :
  logged_name k ≠ method_name k → ∃ oid, k = RefreshOrgInvitationKey oid.
Proof. destruct k; intros Hk; try done. by eexists. Qed.

(** ** Construction *)

Lemma new_accepted url auth st :
  match auth with
  | Some a => auth_type a ∈ OrgClient.allowed_authorizer_types
  | None => True
  end →
  let self := fresh (dom (heap st)) in
  OrgClient.new url auth st
  = (Ok self,
     {| heap := <[self := {| klass := OrgClient.cls; base_url := url;
                             service := "org"; client_authorizer := auth |}]>
                  (heap st);
        trace := trace st |}).
Proof.
  intros Hauth self.
  unfold OrgClient.new, instantiate, mbind, M_bind, fresh_loc.
  unfold OrgClient.__init__, BaseClient.__init__. simpl.
  destruct auth as [a|]; [|done].
  by rewrite bool_decide_eq_true_2.
Qed.

Lemma new_is_org_client url auth st :
  match auth with
  | Some a => auth_type a ∈ OrgClient.allowed_authorizer_types
  | None => True
  end →
  is_org_client (OrgClient.new url auth st).2 (fresh (dom (heap st))) url auth.
Proof.
  intros Hauth. rewrite new_accepted by done. unfold is_org_client. simpl.
  apply lookup_insert_eq.
Qed.

Lemma demo_is_org_client :
  is_org_client demo_state demo_self demo_url (Some basic_auth).
Proof. reflexivity. Qed.

(** ** Runs on the example service *)

Example run_query_org :
  @OrgClient.query_org demo_transport demo_self "acme" demo_state
  = (Ok {| resp_class := ArkIDHTTPResponse;
           resp_raw := {| status := 200; message := "OK"; data := PyDict ∅ |} |},
     {| heap := heap demo_state;
        trace :=
          [EvLog INFO "正在调用 OrgClient.query_org() 接口与 ArkID 服务端进行交互";
           EvRequest {| req_method := GET; req_base_url := demo_url;
                        req_path := "/siteapi/v1/org/acme/";
                        req_params := None; req_json_body := None;
                        req_authorization := Some "Basic YWRtaW46YWRtaW4=" |}] |}).
Proof. reflexivity. Qed.

Example run_delete_org_unknown :
  outcome (@OrgClient.delete_org demo_transport demo_self "nowhere") demo_state
  = Raise (APIError OrgAPIError 404 "Not Found").
Proof. reflexivity. Qed.

Example run_two_calls :
  requests_of
    (emitted (@run_calls demo_transport demo_self
                [DeleteOrg "nowhere"; JoinOrgByInvitationKey "acme" "k3y"])
       demo_state)
  = [ {| req_method := DELETE; req_base_url := demo_url;
         req_path := "/siteapi/v1/org/nowhere/";
         req_params := None; req_json_body := None;
         req_authorization := Some "Basic YWRtaW46YWRtaW4=" |};
      {| req_method := POST; req_base_url := demo_url;
         req_path := "/siteapi/v1/org/acme/invitation/k3y/";
         req_params := None; req_json_body := None;
         req_authorization := Some "Basic YWRtaW46YWRtaW4=" |} ].
Proof. reflexivity. Qed.

Example format_two_fields :
  format "{}/user/{}/" ["acme"; "bob"] = Some "acme/user/bob/".
Proof. reflexivity. Qed.

Example format_missing_argument : format "{}/user/{}/" ["acme"] = None.
Proof. reflexivity. Qed.

Example format_copies_braces : format "{}/" ["{}"] = Some "{}/".
Proof. reflexivity. Qed.

(** ** The requests of the methods *)

Section requests.
Context `{Transport}.

(** C1.  [query_org(oid)] issues exactly one request: a GET whose path is
    the base path of the organisation client, [/siteapi/v1/org/],
    followed by [oid] and a slash, with no query parameters and no
    body. *)
Theorem query_org_issues_one_get self oid st url auth :
  is_org_client st self url auth →
  BaseClient.base_path {| klass := OrgClient.cls; base_url := url;
                          service := "org"; client_authorizer := auth |}
  = "/siteapi/v1/org/"
  ∧ requests_of (emitted (OrgClient.query_org self oid) st)
    = [ {| req_method := GET;
           req_base_url := url;
           req_path := "/siteapi/v1/org/" +:+ oid +:+ "/";
           req_params := None;
           req_json_body := None;
           req_authorization := auth_header <$> auth |} ].
Proof.
  intros Hc. split; [reflexivity|].
  exact (invoke_requests self (QueryOrg oid) st _ Hc).
Qed.

(** C2.  [add_orguser(oid, usernames)] issues exactly one request: a
    PATCH to [/siteapi/v1/org/<oid>/user/] whose body is the mapping with
    the two keys [subject], bound to ["add"], and [usernames], bound to
    the list the caller gave. *)
Theorem add_orguser_issues_one_patch self oid usernames st url auth :
  is_org_client st self url auth →
  ∃ body : pydict,
    requests_of (emitted (OrgClient.add_orguser self oid usernames) st)
    = [ {| req_method := PATCH;
           req_base_url := url;
           req_path := "/siteapi/v1/org/" +:+ oid +:+ "/user/";
           req_params := None;
           req_json_body := Some body;
           req_authorization := auth_header <$> auth |} ]
    ∧ body = {[ "subject" := PyStr "add"; "usernames" := PyList usernames ]}
    ∧ dom body = {[ "subject"; "usernames" ]}
    ∧ body !! "subject" = Some (PyStr "add")
    ∧ body !! "usernames" = Some (PyList usernames).
Proof.
  intros Hc. eexists. split.
  - exact (invoke_requests self (AddOrguser oid usernames) st _ Hc).
  - split; [reflexivity|]. split; [|split; reflexivity].
    rewrite dom_insert_L, dom_singleton_L. set_solver.
Qed.

(** C3.  [delete_orguser(oid, usernames)] issues a PATCH to the path of
    [add_orguser(oid, usernames)]; its body is that of [add_orguser] with
    [subject] bound to ["delete"] instead of ["add"], every other key,
    [usernames] among them, bound as before. *)
Theorem delete_orguser_like_add_orguser self oid usernames st url auth :
  is_org_client st self url auth →
  ∃ (r_add r_del : request) (b_add b_del : pydict),
    requests_of (emitted (OrgClient.add_orguser self oid usernames) st)
    = [r_add]
    ∧ requests_of (emitted (OrgClient.delete_orguser self oid usernames) st)
      = [r_del]
    ∧ req_method r_add = PATCH ∧ req_method r_del = PATCH
    ∧ req_path r_del = req_path r_add
    ∧ req_json_body r_add = Some b_add ∧ req_json_body r_del = Some b_del
    ∧ b_add !! "subject" = Some (PyStr "add")
    ∧ b_del !! "subject" = Some (PyStr "delete")
    ∧ b_del !! "usernames" = b_add !! "usernames"
    ∧ b_del !! "usernames" = Some (PyList usernames)
    ∧ (∀ key : string, key ≠ "subject" → b_del !! key = b_add !! key)
    ∧ r_del = {| req_method := req_method r_add;
                 req_base_url := req_base_url r_add;
                 req_path := req_path r_add;
                 req_params := req_params r_add;
                 req_json_body := Some (<["subject" := PyStr "delete"]> b_add);
                 req_authorization := req_authorization r_add |}.
Proof.
  intros Hc. do 4 eexists.
  split; [exact (invoke_requests self (AddOrguser oid usernames) st _ Hc)|].
  split; [exact (invoke_requests self (DeleteOrguser oid usernames) st _ Hc)|].
  repeat (split; [reflexivity|]).
  split; [|reflexivity].
  intros key Hkey. by rewrite !(lookup_insert_ne _ "subject").
Qed.

(** C4.  [create_org(json_body)] issues exactly one request: a POST to
    the collection path [/siteapi/v1/org/] whose body is the mapping the
    caller gave. *)
Theorem create_org_issues_one_post self (json_body : pydict) st url auth :
  is_org_client st self url auth →
  requests_of (emitted (OrgClient.create_org self json_body) st)
  = [ {| req_method := POST;
         req_base_url := url;
         req_path := "/siteapi/v1/org/";
         req_params := None;
         req_json_body := Some json_body;
         req_authorization := auth_header <$> auth |} ].
Proof. intros Hc. exact (invoke_requests self (CreateOrg json_body) st _ Hc). Qed.
End requests.

(** ** Logging *)

Section logging.
Context `{Transport}.

(** Every call writes one line at level INFO, then sends one request. *)
Lemma one_info_line_before_dispatch self k st url auth :
  is_org_client st self url auth →
  ∃ line req, emitted (invoke self k) st = [EvLog INFO line; EvRequest req].
Proof. intros Hc. do 2 eexists. exact (invoke_emitted _ _ _ _ Hc). Qed.

(** Thirteen of the fourteen methods name themselves in that line. *)
Lemma info_line_names_method self k st url auth :
  is_org_client st self url auth →
  (∀ oid, k ≠ RefreshOrgInvitationKey oid) →
  ∃ line, info_lines_of (emitted (invoke self k) st) = [line]
          ∧ names_method line k = true.
Proof.
  intros Hc Hk. exists (log_message k). split.
  - by rewrite (invoke_emitted _ _ _ _ Hc).
  - apply log_message_names_method.
    destruct (decide (logged_name k = method_name k)) as [|Hne]; [done|].
    destruct (logged_name_refresh k Hne) as [oid ->]. by destruct (Hk oid).
Qed.

(** [refresh_org_invitation_key] writes the message of
    [get_org_invitation_key], whatever its argument. *)
Lemma refresh_org_invitation_key_info_line self oid st url auth :
  is_org_client st self url auth →
  info_lines_of (emitted (OrgClient.refresh_org_invitation_key self oid) st)
  = info_lines_of (emitted (OrgClient.get_org_invitation_key self oid) st)
  ∧ ∀ line,
      line ∈ info_lines_of
               (emitted (OrgClient.refresh_org_invitation_key self oid) st) →
      names_method line (RefreshOrgInvitationKey oid) = false.
Proof.
  intros Hc.
  pose proof (invoke_emitted self (RefreshOrgInvitationKey oid) st _ Hc) as Hr.
  pose proof (invoke_emitted self (GetOrgInvitationKey oid) st _ Hc) as Hg.
  simpl in Hr, Hg. rewrite Hr, Hg. split; [reflexivity|].
  intros line Hline. apply list_elem_of_singleton in Hline as ->.
  reflexivity.
Qed.
End logging.

(** C5.  On the example service, [oc.refresh_org_invitation_key("acme")]
    writes one line at level INFO before its PUT, and that line names
    [get_org_invitation_key], not [refresh_org_invitation_key]. *)
Theorem refresh_org_invitation_key_logs_wrong_name :
  emitted (@OrgClient.refresh_org_invitation_key demo_transport demo_self "acme")
    demo_state
  = [EvLog INFO
       "正在调用 OrgClient.get_org_invitation_key() 接口与 ArkID 服务端进行交互";
     EvRequest {| req_method := PUT; req_base_url := demo_url;
                  req_path := "/siteapi/v1/org/acme/invitation/";
                  req_params := None; req_json_body := None;
                  req_authorization := Some "Basic YWRtaW46YWRtaW4=" |}]
  ∧ names_method
      "正在调用 OrgClient.get_org_invitation_key() 接口与 ArkID 服务端进行交互"
      (RefreshOrgInvitationKey "acme") = false
  ∧ names_method
      "正在调用 OrgClient.get_org_invitation_key() 接口与 ArkID 服务端进行交互"
      (GetOrgInvitationKey "acme") = true.
Proof. repeat split; reflexivity. Qed.

(** ** Construction with a rejected authorizer *)

(** C6.  The allow-list of [OrgClient] holds [BasicAuthorizer] only, and
    constructing an [OrgClient] with an authorizer of any other type raises
    inside the initialiser: nothing is sent or logged, the heap holds no
    new object, and the caller receives no client to call a method on. *)
Theorem rejected_authorizer_fails_at_construction url (a : authorizer) st :
  auth_type a ∉ OrgClient.allowed_authorizer_types →
  OrgClient.allowed_authorizer_types = [BasicAuthorizer]
  ∧ OrgClient.__init__ (fresh (dom (heap st))) url (Some a) st
    = (Raise (AuthorizerNotAllowed (auth_type a)), st)
  ∧ OrgClient.new url (Some a) st
    = (Raise (AuthorizerNotAllowed (auth_type a)), st)
  ∧ requests_of (emitted (OrgClient.new url (Some a)) st) = []
  ∧ heap (OrgClient.new url (Some a) st).2 !! fresh (dom (heap st)) = None.
Proof.
  intros Hnot.
  assert (OrgClient.__init__ (fresh (dom (heap st))) url (Some a) st
          = (Raise (AuthorizerNotAllowed (auth_type a)), st)) as Hinit.
  { unfold OrgClient.__init__, BaseClient.__init__. simpl.
    by rewrite bool_decide_eq_false_2. }
  assert (OrgClient.new url (Some a) st
          = (Raise (AuthorizerNotAllowed (auth_type a)), st)) as Hnew.
  { unfold OrgClient.new, instantiate, mbind, M_bind, fresh_loc.
    cbv beta iota. by rewrite Hinit. }
  split; [reflexivity|]. split; [done|]. split; [done|]. split.
  - unfold emitted. rewrite Hnew. simpl. by rewrite drop_all.
  - rewrite Hnew. simpl. apply not_elem_of_dom, is_fresh.
Qed.

(** ** Server errors *)

Section errors.
Context `{Transport}.

(** C7.  Whatever the method, when the server answers the request of the
    call with an error response, the call raises [OrgAPIError], the error
    class of [OrgClient], with the status and the message of that
    response, and the request was the only one sent. *)
Theorem server_error_raises_OrgAPIError self k st url auth req :
  is_org_client st self url auth →
  head (requests_of (emitted (invoke self k) st)) = Some req →
  is_error_response (respond (requests_of (trace st)) req) = true →
  OrgClient.error_class = OrgAPIError
  ∧ outcome (invoke self k) st
    = Raise (APIError OrgAPIError
               (status (respond (requests_of (trace st)) req))
               (message (respond (requests_of (trace st)) req)))
  ∧ requests_of (emitted (invoke self k) st) = [req].
Proof.
  intros Hc Hreq Herr.
  rewrite (invoke_requests _ _ _ _ Hc) in Hreq |- *.
  injection Hreq as <-.
  split; [reflexivity|]. split; [|reflexivity].
  rewrite (invoke_outcome _ _ _ _ Hc). simpl. by rewrite Herr.
Qed.
End errors.

(** ** Statelessness *)

Section stateless.
Context `{Transport}.

(** C8.  After any sequence of calls on one client the heap, hence the
    configuration of the client (class with its error and response
    classes, base URL, service, authorizer), is what it was before; and
    the request of a call is the same after the sequence as before it,
    and the same on any other client with the same configuration. *)
Theorem calls_leave_client_unchanged self ks k st url auth :
  is_org_client st self url auth →
  heap (run_calls self ks st).2 = heap st
  ∧ is_org_client (run_calls self ks st).2 self url auth
  ∧ requests_of (emitted (invoke self k) (run_calls self ks st).2)
    = requests_of (emitted (invoke self k) st)
  ∧ (∀ st2 self2,
       is_org_client st2 self2 url auth →
       requests_of (emitted (invoke self2 k) st2)
       = requests_of (emitted (invoke self k) st)).
Proof.
  intros Hc.
  assert (heap (run_calls self ks st).2 = heap st) as Hheap.
  { by rewrite (run_calls_state _ _ _ _ Hc). }
  assert (is_org_client (run_calls self ks st).2 self url auth) as Hc'.
  { unfold is_org_client. by rewrite Hheap. }
  split; [done|]. split; [done|]. split.
  - by rewrite (invoke_requests _ _ _ _ Hc'), (invoke_requests _ _ _ _ Hc).
  - intros st2 self2 Hc2.
    by rewrite (invoke_requests _ _ _ _ Hc2), (invoke_requests _ _ _ _ Hc).
Qed.

(** The requests of a sequence of calls are those of the endpoint table,
    call by call. *)
Lemma run_calls_requests self ks st c :
  heap st !! self = Some c →
  requests_of (emitted (run_calls self ks) st) = endpoint_request c <$> ks.
Proof.
  intros Hc. rewrite <-requests_of_calls. f_equal.
  apply emitted_app. by rewrite (run_calls_state _ _ _ _ Hc).
Qed.
End stateless.

(** ** Paths *)

Section paths.
Context `{Transport}.

(** C9.  The path of a request does not tell which call made it:
    [query_org(x + "/user/" + y)] and [query_orguser(x, y)] are different
    calls that issue the same request, to the path
    [/siteapi/v1/org/<x>/user/<y>/]. *)
Theorem paths_do_not_determine_calls self x y st url auth :
  is_org_client st self url auth →
  QueryOrg (x +:+ "/user/" +:+ y) ≠ QueryOrguser x y
  ∧ requests_of (emitted (OrgClient.query_org self (x +:+ "/user/" +:+ y)) st)
    = requests_of (emitted (OrgClient.query_orguser self x y) st)
  ∧ (req_path <$>
       requests_of (emitted (OrgClient.query_orguser self x y) st))
    = ["/siteapi/v1/org/" +:+ x +:+ "/user/" +:+ y +:+ "/"]
  ∧ ¬ (∀ k1 k2 : call,
         (req_path <$> requests_of (emitted (invoke self k1) st))
         = (req_path <$> requests_of (emitted (invoke self k2) st)) →
         k1 = k2).
Proof.
  intros Hc.
  assert (requests_of
            (emitted (OrgClient.query_org self (x +:+ "/user/" +:+ y)) st)
          = requests_of (emitted (OrgClient.query_orguser self x y) st))
    as Hsame.
  { etrans; [exact (invoke_requests self (QueryOrg _) st _ Hc)|].
    etrans; [|symmetry; exact (invoke_requests self (QueryOrguser x y) st _ Hc)].
    unfold endpoint_request, endpoint, BaseClient.build_request.
    by rewrite !string_app_assoc. }
  split; [discriminate|]. split; [exact Hsame|]. split.
  - pose proof (invoke_requests self (QueryOrguser x y) st _ Hc) as Hu.
    simpl in Hu. by rewrite Hu.
  - intros Hinj.
    specialize (Hinj (QueryOrg (x +:+ "/user/" +:+ y)) (QueryOrguser x y)).
    simpl in Hinj. rewrite Hsame in Hinj. by specialize (Hinj eq_refl).
Qed.
End paths.

(** ** Bodies *)

Section bodies.
Context `{Transport}.

(** C10.  Every call issues one request.  The request carries a JSON body
    exactly when the method is one of [create_org], [update_org],
    [add_orguser], [delete_orguser] and [update_orguser]; the POST of
    [join_org_by_invitation_key] has no body, and the PUT of
    [refresh_org_invitation_key] has neither body nor query
    parameters. *)
Theorem only_five_methods_attach_a_body self k st url auth :
  is_org_client st self url auth →
  ∃ r : request,
    requests_of (emitted (invoke self k) st) = [r]
    ∧ (is_Some (req_json_body r) ↔
       method_name k ∈ ["create_org"; "update_org"; "add_orguser";
                        "delete_orguser"; "update_orguser"])
    ∧ (method_name k = "join_org_by_invitation_key" →
       req_method r = POST ∧ req_json_body r = None)
    ∧ (method_name k = "refresh_org_invitation_key" →
       req_method r = PUT ∧ req_json_body r = None ∧ req_params r = None).
Proof.
  intros Hc. eexists. split; [exact (invoke_requests _ _ _ _ Hc)|].
  destruct k; simpl; (split; [|split; [done|done]]).
  all: split; [intros [b Hb]|intros Hin].
  all: first [ discriminate Hb
             | by eexists
             | apply (bool_decide_unpack _); vm_compute; exact I
             | apply (bool_decide_pack _) in Hin; vm_compute in Hin;
               destruct Hin ].
Qed.
End bodies.

(** ** The theorems at work on the example service *)

Lemma query_org_issues_one_get_witness :
  is_org_client demo_state demo_self demo_url (Some basic_auth)
  ∧ requests_of
      (emitted (@OrgClient.query_org demo_transport demo_self "acme") demo_state)
    = [ {| req_method := GET; req_base_url := demo_url;
           req_path := "/siteapi/v1/org/acme/";
           req_params := None; req_json_body := None;
           req_authorization := Some "Basic YWRtaW46YWRtaW4=" |} ].
Proof.
  split; [reflexivity|].
  apply (@query_org_issues_one_get demo_transport demo_self "acme" demo_state
           demo_url (Some basic_auth)).
  reflexivity.
Defined.

Lemma add_orguser_issues_one_patch_witness :
  is_org_client demo_state demo_self demo_url (Some basic_auth)
  ∧ ∃ body : pydict,
      requests_of
        (emitted (@OrgClient.add_orguser demo_transport demo_self "acme"
                    [PyStr "a"; PyStr "b"]) demo_state)
      = [ {| req_method := PATCH; req_base_url := demo_url;
             req_path := "/siteapi/v1/org/acme/user/";
             req_params := None; req_json_body := Some body;
             req_authorization := Some "Basic YWRtaW46YWRtaW4=" |} ]
      ∧ body = {[ "subject" := PyStr "add";
                  "usernames" := PyList [PyStr "a"; PyStr "b"] ]}.
Proof.
  split; [reflexivity|].
  destruct (@add_orguser_issues_one_patch demo_transport demo_self "acme"
              [PyStr "a"; PyStr "b"] demo_state demo_url (Some basic_auth))
    as (body & Hreq & Hbody & _).
  - reflexivity.
  - exists body. split; [exact Hreq | exact Hbody].
Defined.

Lemma delete_orguser_like_add_orguser_witness :
  is_org_client demo_state demo_self demo_url (Some basic_auth)
  ∧ ∃ r_add r_del : request,
      requests_of
        (emitted (@OrgClient.add_orguser demo_transport demo_self "acme"
                    [PyStr "a"]) demo_state) = [r_add]
      ∧ requests_of
          (emitted (@OrgClient.delete_orguser demo_transport demo_self "acme"
                      [PyStr "a"]) demo_state) = [r_del]
      ∧ req_path r_del = req_path r_add.
Proof.
  split; [reflexivity|].
  destruct (@delete_orguser_like_add_orguser demo_transport demo_self "acme"
              [PyStr "a"] demo_state demo_url (Some basic_auth))
    as (r_add & r_del & b_add & b_del & Hadd & Hdel & _ & _ & Hpath & _).
  - reflexivity.
  - exists r_add, r_del. split; [exact Hadd|]. split; [exact Hdel | exact Hpath].
Defined.

Lemma create_org_issues_one_post_witness :
  is_org_client demo_state demo_self demo_url (Some basic_auth)
  ∧ requests_of
      (emitted (@OrgClient.create_org demo_transport demo_self
                  {[ "name" := PyStr "example" ]}) demo_state)
    = [ {| req_method := POST; req_base_url := demo_url;
           req_path := "/siteapi/v1/org/";
           req_params := None;
           req_json_body := Some {[ "name" := PyStr "example" ]};
           req_authorization := Some "Basic YWRtaW46YWRtaW4=" |} ].
Proof.
  split; [reflexivity|].
  apply (@create_org_issues_one_post demo_transport demo_self
           {[ "name" := PyStr "example" ]} demo_state demo_url (Some basic_auth)).
  reflexivity.
Defined.

Lemma rejected_authorizer_fails_at_construction_witness :
  (OtherAuthorizer "NullAuthorizer" ∉ OrgClient.allowed_authorizer_types)
  ∧ OrgClient.new demo_url
      (Some {| auth_type := OtherAuthorizer "NullAuthorizer"; auth_header := "" |})
      empty_state
    = (Raise (AuthorizerNotAllowed (OtherAuthorizer "NullAuthorizer")),
       empty_state).
Proof.
  assert (OtherAuthorizer "NullAuthorizer" ∉ OrgClient.allowed_authorizer_types)
    as Hnot.
  { apply (bool_decide_unpack _). vm_compute. exact I. }
  split; [exact Hnot|].
  apply (rejected_authorizer_fails_at_construction demo_url
           {| auth_type := OtherAuthorizer "NullAuthorizer"; auth_header := "" |}
           empty_state Hnot).
Defined.

Lemma server_error_raises_OrgAPIError_witness :
  is_org_client demo_state demo_self demo_url (Some basic_auth)
  ∧ outcome (@invoke demo_transport demo_self (QueryOrg "nowhere")) demo_state
    = Raise (APIError OrgAPIError 404 "Not Found")
  ∧ requests_of
      (emitted (@invoke demo_transport demo_self (QueryOrg "nowhere")) demo_state)
    = [ {| req_method := GET; req_base_url := demo_url;
           req_path := "/siteapi/v1/org/nowhere/";
           req_params := None; req_json_body := None;
           req_authorization := Some "Basic YWRtaW46YWRtaW4=" |} ].
Proof.
  split; [reflexivity|].
  apply (@server_error_raises_OrgAPIError demo_transport demo_self
           (QueryOrg "nowhere") demo_state demo_url (Some basic_auth)
           {| req_method := GET; req_base_url := demo_url;
              req_path := "/siteapi/v1/org/nowhere/";
              req_params := None; req_json_body := None;
              req_authorization := Some "Basic YWRtaW46YWRtaW4=" |}).
  - reflexivity.
  - reflexivity.
  - reflexivity.
Defined.

Lemma calls_leave_client_unchanged_witness :
  is_org_client demo_state demo_self demo_url (Some basic_auth)
  ∧ heap (@run_calls demo_transport demo_self
            [DeleteOrg "nowhere"; CreateOrg ∅] demo_state).2
    = heap demo_state
  ∧ requests_of
      (emitted (@invoke demo_transport demo_self (QueryOrg "acme"))
         (@run_calls demo_transport demo_self
            [DeleteOrg "nowhere"; CreateOrg ∅] demo_state).2)
    = requests_of
        (emitted (@invoke demo_transport demo_self (QueryOrg "acme")) demo_state).
Proof.
  split; [reflexivity|].
  destruct (@calls_leave_client_unchanged demo_transport demo_self
              [DeleteOrg "nowhere"; CreateOrg ∅] (QueryOrg "acme") demo_state
              demo_url (Some basic_auth))
    as (Hheap & _ & Hsame & _).
  - reflexivity.
  - split; [exact Hheap | exact Hsame].
Defined.

Lemma paths_do_not_determine_calls_witness :
  is_org_client demo_state demo_self demo_url (Some basic_auth)
  ∧ QueryOrg "x/user/y" ≠ QueryOrguser "x" "y"
  ∧ requests_of
      (emitted (@OrgClient.query_org demo_transport demo_self "x/user/y")
         demo_state)
    = requests_of
        (emitted (@OrgClient.query_orguser demo_transport demo_self "x" "y")
           demo_state).
Proof.
  split; [reflexivity|].
  destruct (@paths_do_not_determine_calls demo_transport demo_self "x" "y"
              demo_state demo_url (Some basic_auth))
    as (Hne & Hsame & _).
  - reflexivity.
  - split; [exact Hne | exact Hsame].
Defined.

Lemma only_five_methods_attach_a_body_witness :
  is_org_client demo_state demo_self demo_url (Some basic_auth)
  ∧ ∃ r : request,
      requests_of
        (emitted (@invoke demo_transport demo_self
                    (JoinOrgByInvitationKey "acme" "k3y")) demo_state) = [r]
      ∧ req_method r = POST ∧ req_json_body r = None.
Proof.
  split; [reflexivity|].
  destruct (@only_five_methods_attach_a_body demo_transport demo_self
              (JoinOrgByInvitationKey "acme" "k3y") demo_state demo_url
              (Some basic_auth))
    as (r & Hreq & _ & Hjoin & _).
  - reflexivity.
  - exists r. split; [exact Hreq|]. apply Hjoin. reflexivity.
Defined.

(** * Further properties of the methods *)

(** ** Strings *)

Lemma append_cons (a : ascii) (s t : string) :
  String a s +:+ t = String a (s +:+ t).
Proof. reflexivity. Qed.

Lemma length_append (s t : string) :
  String.length (s +:+ t) = String.length s + String.length t.
Proof.
  induction s as [|a s IH]; [done|].
  rewrite append_cons. simpl. by rewrite IH.
Qed.

(** A suffix can be cancelled. *)
Lemma append_inj_l (s x y : string) : x +:+ s = y +:+ s → x = y.
Proof.
  revert y. induction x as [|a x IH]; intros [|b y] Heq; [done| | |].
  - apply (f_equal String.length) in Heq.
    rewrite !length_append in Heq. simpl in Heq. lia.
  - apply (f_equal String.length) in Heq.
    rewrite !length_append in Heq. simpl in Heq. lia.
  - rewrite !append_cons in Heq. injection Heq as -> Heq.
    by rewrite (IH _ Heq).
Qed.

Lemma append_nil (s : string) : "" +:+ s = s.
Proof. reflexivity. Qed.

Lemma append_slash_nonempty (s t : string) : s +:+ String "/" t ≠ "".
Proof. by destruct s. Qed.

Lemma append_nonempty_neq (s t : string) : t ≠ "" → s +:+ t ≠ s.
Proof.
  intros Ht Heq. apply (f_equal String.length) in Heq.
  rewrite length_append in Heq. destruct t; [done|]. simpl in Heq. lia.
Qed.

(** Two strings that agree up to and including the first slash of each. *)
Lemma cut_at_slash (x y r t : string) :
  slash_free x = true → slash_free y = true →
  x +:+ String "/" r = y +:+ String "/" t → x = y ∧ r = t.
Proof.
  revert y. induction x as [|a x IH]; intros [|b y] Hx Hy Heq.
  - by injection Heq as ->.
  - rewrite append_cons in Heq. injection Heq as <- _. done.
  - rewrite append_cons in Heq. injection Heq as -> _. done.
  - rewrite !append_cons in Heq. injection Heq as -> Heq.
    simpl in Hx, Hy. apply andb_prop in Hx as [_ Hx], Hy as [_ Hy].
    destruct (IH y Hx Hy Heq) as [-> ->]. done.
Qed.

(** ** The requests of the other methods *)

Section more_requests.
Context `{Transport}.

(** X1.  [query_own_org], called with the keyword arguments [params],
    issues one request: a GET to the
    collection path whose query parameters are the keyword arguments of the
    caller, all of them and nothing else, and which has no body.  Called
    without keyword arguments it still passes query parameters, the empty
    dict, unlike [query_org], which passes none. *)
Theorem query_own_org_passes_params self (params : pydict) oid st c :
  heap st !! self = Some c →
  requests_of (emitted (OrgClient.query_own_org self params) st)
  = [BaseClient.build_request c GET "" (Some params) None]
  ∧ requests_of (emitted (OrgClient.query_own_org self ∅) st)
    = [BaseClient.build_request c GET "" (Some ∅) None]
  ∧ (req_params <$>
       requests_of (emitted (OrgClient.query_own_org self params) st))
    ≠ (req_params <$> requests_of (emitted (OrgClient.query_org self oid) st)).
Proof.
  intros Hc.
  pose proof (invoke_requests self (QueryOwnOrg params) st _ Hc) as Hp.
  pose proof (invoke_requests self (QueryOwnOrg ∅) st _ Hc) as He.
  pose proof (invoke_requests self (QueryOrg oid) st _ Hc) as Hq.
  simpl in Hp, He, Hq. rewrite Hp, He, Hq.
  split; [done|]. split; [done|]. discriminate.
Qed.

(** X2.  For one [oid], [query_org], [delete_org] and [update_org] address
    the same resource: their requests differ in the method (GET, DELETE,
    PATCH) and in the body, which only [update_org] has and which is the
    dict of the caller; path, query parameters and credentials are the
    same. *)
Theorem org_methods_share_the_resource self oid (json_body : pydict) st c :
  heap st !! self = Some c →
  ∃ r_query r_delete r_update : request,
    requests_of (emitted (OrgClient.query_org self oid) st) = [r_query]
    ∧ requests_of (emitted (OrgClient.delete_org self oid) st) = [r_delete]
    ∧ requests_of (emitted (OrgClient.update_org self oid json_body) st)
      = [r_update]
    ∧ r_query = BaseClient.build_request c GET (oid +:+ "/") None None
    ∧ r_delete = {| req_method := DELETE;
                    req_base_url := req_base_url r_query;
                    req_path := req_path r_query;
                    req_params := req_params r_query;
                    req_json_body := None;
                    req_authorization := req_authorization r_query |}
    ∧ r_update = {| req_method := PATCH;
                    req_base_url := req_base_url r_query;
                    req_path := req_path r_query;
                    req_params := req_params r_query;
                    req_json_body := Some json_body;
                    req_authorization := req_authorization r_query |}.
Proof.
  intros Hc. do 3 eexists.
  split; [exact (invoke_requests self (QueryOrg oid) st _ Hc)|].
  split; [exact (invoke_requests self (DeleteOrg oid) st _ Hc)|].
  split; [exact (invoke_requests self (UpdateOrg oid json_body) st _ Hc)|].
  by repeat split.
Qed.

(** X3.  [update_orguser(oid, username, json_body)] issues one PATCH whose
    body is the dict of the caller, to the path [query_orguser(oid,
    username)] reads from: [<oid>/user/<username>/] under the base path. *)
Theorem update_orguser_patches_the_member self oid username
    (json_body : pydict) st c :
  heap st !! self = Some c →
  requests_of (emitted (OrgClient.update_orguser self oid username json_body) st)
  = [BaseClient.build_request c PATCH
       (oid +:+ "/user/" +:+ username +:+ "/") None (Some json_body)]
  ∧ requests_of (emitted (OrgClient.query_orguser self oid username) st)
    = [BaseClient.build_request c GET
         (oid +:+ "/user/" +:+ username +:+ "/") None None].
Proof.
  intros Hc. split.
  - exact (invoke_requests self (UpdateOrguser oid username json_body) st _ Hc).
  - exact (invoke_requests self (QueryOrguser oid username) st _ Hc).
Qed.

(** X4.  [query_orguser_list], called with [oid] and the keyword arguments
    [params], issues one GET to
    [<oid>/user/], the path [add_orguser] and [delete_orguser] patch, with
    the keyword arguments of the caller as query parameters and no body. *)
Theorem query_orguser_list_reads_the_members self oid (params : pydict)
    usernames st c :
  heap st !! self = Some c →
  requests_of (emitted (OrgClient.query_orguser_list self oid params) st)
  = [BaseClient.build_request c GET (oid +:+ "/user/") (Some params) None]
  ∧ (req_path <$>
       requests_of (emitted (OrgClient.query_orguser_list self oid params) st))
    = (req_path <$>
         requests_of (emitted (OrgClient.add_orguser self oid usernames) st))
  ∧ (req_path <$>
       requests_of (emitted (OrgClient.query_orguser_list self oid params) st))
    = (req_path <$>
         requests_of (emitted (OrgClient.delete_orguser self oid usernames) st)).
Proof.
  intros Hc.
  pose proof (invoke_requests self (QueryOrguserList oid params) st _ Hc) as Hl.
  pose proof (invoke_requests self (AddOrguser oid usernames) st _ Hc) as Ha.
  pose proof (invoke_requests self (DeleteOrguser oid usernames) st _ Hc) as Hd.
  simpl in Hl, Ha, Hd. rewrite Hl, Ha, Hd. done.
Qed.

(** X5.  [get_org_invitation_key(oid)] and [refresh_org_invitation_key(oid)]
    send the same request but for the method: a GET reads the key, a PUT to
    the same path, [<oid>/invitation/], replaces it.  Neither has query
    parameters or a body. *)
Theorem invitation_key_get_and_refresh self oid st c :
  heap st !! self = Some c →
  requests_of (emitted (OrgClient.get_org_invitation_key self oid) st)
  = [BaseClient.build_request c GET (oid +:+ "/invitation/") None None]
  ∧ requests_of (emitted (OrgClient.refresh_org_invitation_key self oid) st)
    = [BaseClient.build_request c PUT (oid +:+ "/invitation/") None None].
Proof.
  intros Hc. split.
  - exact (invoke_requests self (GetOrgInvitationKey oid) st _ Hc).
  - exact (invoke_requests self (RefreshOrgInvitationKey oid) st _ Hc).
Qed.

(** X6.  [view_org_by_invitation_key(oid, key)] and
    [join_org_by_invitation_key(oid, key)] send the same request but for the
    method: a GET views the organisation, a POST to the same path,
    [<oid>/invitation/<key>/], joins it.  The key travels in the path only:
    neither request has query parameters or a body. *)
Theorem invitation_key_view_and_join self oid invite_link_key st c :
  heap st !! self = Some c →
  requests_of
    (emitted (OrgClient.view_org_by_invitation_key self oid invite_link_key) st)
  = [BaseClient.build_request c GET
       (oid +:+ "/invitation/" +:+ invite_link_key +:+ "/") None None]
  ∧ requests_of
      (emitted (OrgClient.join_org_by_invitation_key self oid invite_link_key)
         st)
    = [BaseClient.build_request c POST
         (oid +:+ "/invitation/" +:+ invite_link_key +:+ "/") None None].
Proof.
  intros Hc. split.
  - exact (invoke_requests self (ViewOrgByInvitationKey oid invite_link_key)
             st _ Hc).
  - exact (invoke_requests self (JoinOrgByInvitationKey oid invite_link_key)
             st _ Hc).
Qed.
End more_requests.

(** ** Which call made a request *)

Section which_call.
Context `{Transport}.


(** X8.  With two identifiers the path no longer tells them apart when the
    first may hold a slash: [query_orguser(x + "/user/" + y, z)] and
    [query_orguser(x, y + "/user/" + z)] are given different arguments and
    issue the same request, and so do the two calls of [update_orguser]
    with one body. *)
Theorem member_path_is_ambiguous self x y z (json_body : pydict) st c :
  heap st !! self = Some c →
  x +:+ "/user/" +:+ y ≠ x
  ∧ requests_of
      (emitted (OrgClient.query_orguser self (x +:+ "/user/" +:+ y) z) st)
    = requests_of
        (emitted (OrgClient.query_orguser self x (y +:+ "/user/" +:+ z)) st)
  ∧ requests_of
      (emitted
         (OrgClient.update_orguser self (x +:+ "/user/" +:+ y) z json_body) st)
    = requests_of
        (emitted
           (OrgClient.update_orguser self x (y +:+ "/user/" +:+ z) json_body)
           st).
Proof.
  intros Hc. split; [|split].
  - apply append_nonempty_neq. discriminate.
  - etrans; [exact (invoke_requests self (QueryOrguser _ _) st _ Hc)|].
    etrans; [|symmetry; exact (invoke_requests self (QueryOrguser _ _) st _ Hc)].
    unfold endpoint_request, endpoint, BaseClient.build_request.
    by rewrite !string_app_assoc.
  - etrans; [exact (invoke_requests self (UpdateOrguser _ _ _) st _ Hc)|].
    etrans;
      [|symmetry; exact (invoke_requests self (UpdateOrguser _ _ _) st _ Hc)].
    unfold endpoint_request, endpoint, BaseClient.build_request.
    by rewrite !string_app_assoc.
Qed.

End which_call.

(** ** What reaches the log *)

Section log_content.
Context `{Transport}.

(** X10.  The line a call logs is fixed by the method: two calls of one
    method log the same line whatever their arguments, the client and the
    history, so that no identifier, invitation key, query parameter or body
    reaches the log. *)
Theorem log_line_ignores_arguments self1 self2 k1 k2 st1 st2 c1 c2 :
  heap st1 !! self1 = Some c1 →
  heap st2 !! self2 = Some c2 →
  method_name k1 = method_name k2 →
  ∃ (line : string) (r1 r2 : request),
    emitted (invoke self1 k1) st1 = [EvLog INFO line; EvRequest r1]
    ∧ emitted (invoke self2 k2) st2 = [EvLog INFO line; EvRequest r2].
Proof.
  intros Hc1 Hc2 Hname.
  exists (log_message k1), (endpoint_request c1 k1), (endpoint_request c2 k2).
  rewrite (invoke_emitted _ _ _ _ Hc1), (invoke_emitted _ _ _ _ Hc2).
  split; [done|].
  assert (log_message k2 = log_message k1) as ->; [|done].
  destruct k1, k2; try discriminate Hname; reflexivity.
Qed.
End log_content.

(** ** Reads and writes *)

Section reads_and_writes.
Context `{Transport}.

(** X11.  An addition is never mistaken for a removal: whatever the
    organisations and the lists of usernames, [add_orguser] and
    [delete_orguser] issue different requests. *)
Theorem add_orguser_is_never_delete_orguser self oid1 oid2
    (usernames1 usernames2 : list pyval) st c :
  heap st !! self = Some c →
  requests_of (emitted (OrgClient.add_orguser self oid1 usernames1) st)
  ≠ requests_of (emitted (OrgClient.delete_orguser self oid2 usernames2) st).
Proof.
  intros Hc Heq.
  pose proof (invoke_requests self (AddOrguser oid1 usernames1) st _ Hc) as Ha.
  pose proof (invoke_requests self (DeleteOrguser oid2 usernames2) st _ Hc)
    as Hd.
  simpl in Ha, Hd. rewrite Ha, Hd in Heq.
  assert ([Some (PyStr "add")] = [Some (PyStr "delete")]) as Hsubject.
  { exact (f_equal
             (fmap (M := list)
                (λ r : request,
                   match req_json_body r with
                   | Some body => body !! "subject"
                   | None => None
                   end)) Heq). }
  discriminate Hsubject.
Qed.

(** X12.  A call reads, that is issues a GET, exactly when its method is
    one of [query_own_org], [query_org], [query_orguser_list],
    [query_orguser], [get_org_invitation_key] and
    [view_org_by_invitation_key]; and a GET never carries a body. *)
Theorem six_methods_read self k st c :
  heap st !! self = Some c →
  ∃ r : request,
    requests_of (emitted (invoke self k) st) = [r]
    ∧ (req_method r = GET ↔
       method_name k ∈ ["query_own_org"; "query_org"; "query_orguser_list";
                        "query_orguser"; "get_org_invitation_key";
                        "view_org_by_invitation_key"])
    ∧ (req_method r = GET → req_json_body r = None).
Proof.
  intros Hc. eexists. split; [exact (invoke_requests _ _ _ _ Hc)|].
  destruct k; simpl; (split; [|done]).
  all: split; [intros Hget|intros Hin].
  all: first [ discriminate Hget
             | reflexivity
             | apply (bool_decide_unpack _); vm_compute; exact I
             | apply (bool_decide_pack _) in Hin; vm_compute in Hin;
               destruct Hin ].
Qed.
End reads_and_writes.

(** ** The further theorems at work on the example service *)

Lemma query_own_org_passes_params_witness :
  heap demo_state !! demo_self = Some demo_client
  ∧ requests_of
      (emitted (@OrgClient.query_own_org demo_transport demo_self
                  {[ "role" := PyStr "admin" ]}) demo_state)
    = [ {| req_method := GET; req_base_url := demo_url;
           req_path := "/siteapi/v1/org/";
           req_params := Some {[ "role" := PyStr "admin" ]};
           req_json_body := None;
           req_authorization := Some "Basic YWRtaW46YWRtaW4=" |} ].
Proof.
  split; [reflexivity|].
  apply (@query_own_org_passes_params demo_transport demo_self
           {[ "role" := PyStr "admin" ]} "acme" demo_state demo_client).
  reflexivity.
Defined.

Lemma org_methods_share_the_resource_witness :
  heap demo_state !! demo_self = Some demo_client
  ∧ ∃ r_query r_delete : request,
      requests_of
        (emitted (@OrgClient.query_org demo_transport demo_self "acme")
           demo_state) = [r_query]
      ∧ requests_of
          (emitted (@OrgClient.delete_org demo_transport demo_self "acme")
             demo_state) = [r_delete]
      ∧ req_path r_query = "/siteapi/v1/org/acme/"
      ∧ req_path r_delete = "/siteapi/v1/org/acme/"
      ∧ req_method r_delete = DELETE.
Proof.
  split; [reflexivity|].
  destruct (@org_methods_share_the_resource demo_transport demo_self "acme"
              {[ "name" := PyStr "example" ]} demo_state demo_client)
    as (r_query & r_delete & r_update & Hq & Hd & _ & Hrq & Hrd & _).
  - reflexivity.
  - exists r_query, r_delete. split; [exact Hq|]. split; [exact Hd|].
    rewrite Hrd, Hrq. repeat split; reflexivity.
Defined.

Lemma update_orguser_patches_the_member_witness :
  heap demo_state !! demo_self = Some demo_client
  ∧ requests_of
      (emitted (@OrgClient.update_orguser demo_transport demo_self "acme" "bob"
                  {[ "email" := PyStr "bob@org.com" ]}) demo_state)
    = [ {| req_method := PATCH; req_base_url := demo_url;
           req_path := "/siteapi/v1/org/acme/user/bob/";
           req_params := None;
           req_json_body := Some {[ "email" := PyStr "bob@org.com" ]};
           req_authorization := Some "Basic YWRtaW46YWRtaW4=" |} ].
Proof.
  split; [reflexivity|].
  apply (@update_orguser_patches_the_member demo_transport demo_self "acme"
           "bob" {[ "email" := PyStr "bob@org.com" ]} demo_state demo_client).
  reflexivity.
Defined.

Lemma query_orguser_list_reads_the_members_witness :
  heap demo_state !! demo_self = Some demo_client
  ∧ requests_of
      (emitted (@OrgClient.query_orguser_list demo_transport demo_self "acme"
                  {[ "page" := PyInt 2 ]}) demo_state)
    = [ {| req_method := GET; req_base_url := demo_url;
           req_path := "/siteapi/v1/org/acme/user/";
           req_params := Some {[ "page" := PyInt 2 ]};
           req_json_body := None;
           req_authorization := Some "Basic YWRtaW46YWRtaW4=" |} ].
Proof.
  split; [reflexivity|].
  apply (@query_orguser_list_reads_the_members demo_transport demo_self "acme"
           {[ "page" := PyInt 2 ]} [PyStr "bob"] demo_state demo_client).
  reflexivity.
Defined.

Lemma invitation_key_get_and_refresh_witness :
  heap demo_state !! demo_self = Some demo_client
  ∧ requests_of
      (emitted (@OrgClient.refresh_org_invitation_key demo_transport demo_self
                  "acme") demo_state)
    = [ {| req_method := PUT; req_base_url := demo_url;
           req_path := "/siteapi/v1/org/acme/invitation/";
           req_params := None; req_json_body := None;
           req_authorization := Some "Basic YWRtaW46YWRtaW4=" |} ].
Proof.
  split; [reflexivity|].
  apply (@invitation_key_get_and_refresh demo_transport demo_self "acme"
           demo_state demo_client).
  reflexivity.
Defined.

Lemma invitation_key_view_and_join_witness :
  heap demo_state !! demo_self = Some demo_client
  ∧ requests_of
      (emitted (@OrgClient.view_org_by_invitation_key demo_transport demo_self
                  "acme" "k3y") demo_state)
    = [ {| req_method := GET; req_base_url := demo_url;
           req_path := "/siteapi/v1/org/acme/invitation/k3y/";
           req_params := None; req_json_body := None;
           req_authorization := Some "Basic YWRtaW46YWRtaW4=" |} ].
Proof.
  split; [reflexivity|].
  apply (@invitation_key_view_and_join demo_transport demo_self "acme" "k3y"
           demo_state demo_client).
  reflexivity.
Defined.


Lemma member_path_is_ambiguous_witness :
  heap demo_state !! demo_self = Some demo_client
  ∧ requests_of
      (emitted (@OrgClient.query_orguser demo_transport demo_self "a/user/b"
                  "c") demo_state)
    = requests_of
        (emitted (@OrgClient.query_orguser demo_transport demo_self "a"
                    "b/user/c") demo_state).
Proof.
  split; [reflexivity|].
  exact (proj1 (proj2 (@member_path_is_ambiguous demo_transport demo_self
                         "a" "b" "c" ∅ demo_state demo_client eq_refl))).
Defined.


Lemma log_line_ignores_arguments_witness :
  heap demo_state !! demo_self = Some demo_client
  ∧ method_name (JoinOrgByInvitationKey "acme" "k3y")
    = method_name (JoinOrgByInvitationKey "acme" "s3cret")
  ∧ ∃ (line : string) (r1 r2 : request),
      emitted (@invoke demo_transport demo_self
                 (JoinOrgByInvitationKey "acme" "k3y")) demo_state
      = [EvLog INFO line; EvRequest r1]
      ∧ emitted (@invoke demo_transport demo_self
                   (JoinOrgByInvitationKey "acme" "s3cret")) demo_state
        = [EvLog INFO line; EvRequest r2].
Proof.
  split; [reflexivity|]. split; [reflexivity|].
  apply (@log_line_ignores_arguments demo_transport demo_self demo_self
           (JoinOrgByInvitationKey "acme" "k3y")
           (JoinOrgByInvitationKey "acme" "s3cret")
           demo_state demo_state demo_client demo_client).
  - reflexivity.
  - reflexivity.
  - reflexivity.
Defined.

Lemma add_orguser_is_never_delete_orguser_witness :
  heap demo_state !! demo_self = Some demo_client
  ∧ requests_of
      (emitted (@OrgClient.add_orguser demo_transport demo_self "acme"
                  [PyStr "bob"]) demo_state)
    ≠ requests_of
        (emitted (@OrgClient.delete_orguser demo_transport demo_self "acme"
                    [PyStr "bob"]) demo_state).
Proof.
  split; [reflexivity|].
  apply (@add_orguser_is_never_delete_orguser demo_transport demo_self "acme"
           "acme" [PyStr "bob"] [PyStr "bob"] demo_state demo_client).
  reflexivity.
Defined.

Lemma six_methods_read_witness :
  heap demo_state !! demo_self = Some demo_client
  ∧ ∃ r : request,
      requests_of
        (emitted (@invoke demo_transport demo_self
                    (ViewOrgByInvitationKey "acme" "k3y")) demo_state) = [r]
      ∧ req_method r = GET ∧ req_json_body r = None.
Proof.
  split; [reflexivity|].
  destruct (@six_methods_read demo_transport demo_self
              (ViewOrgByInvitationKey "acme" "k3y") demo_state demo_client)
    as (r & Hreq & Hget & Hbody).
  - reflexivity.
  - assert (req_method r = GET) as Hr.
    { apply Hget. apply (bool_decide_unpack _). vm_compute. exact I. }
    exists r. split; [exact Hreq|]. split; [exact Hr | exact (Hbody Hr)].
Defined.
